(** * ElasticsearchToolkit: a shallow embedding of
      [owl/camel/toolkits/elasticsearch_toolkit.py]

    The toolkit is a thin adapter around an Elasticsearch client.  Its
    methods log, forward their arguments to the client inside a
    [try ... except Exception] block, and return either the client's
    response or the mapping [{"error": str(e)}].

    The embedding threads an explicit world through every method: the
    store of toolkit instances, the process environment, the trace of
    calls made on the client library, the log, and the hidden state of
    the remote service.  The client library itself ([elasticsearch]) is
    not part of the repository; it is a parameter ([backend]). *)

From Stdlib Require Import ZArith String List.
From stdpp Require Import base option gmap strings list.

Open Scope string_scope.

Set Warnings "-register-all".

(** ** Python values *)

(** The JSON-like fragment of Python values that queries, documents and
    responses are made of.  A [dict] keeps its insertion order, so it is
    an association list. *)
Inductive pyvalue : Type :=
| PyNone
| PyBool (b : bool)
| PyInt (n : Z)
| PyStr (s : string)
| PyList (xs : list pyvalue)
| PyDict (items : list (string * pyvalue)).

(** [Dict[str, Any]] *)
Definition pydict : Type := list (string * pyvalue).


(** ** Exceptions *)

(** The part of the built-in exception hierarchy that matters for an
    [except Exception] clause, together with the exception classes of
    the client library, which all derive from [Exception]. *)
Inductive exc_class : Type :=
| BaseException
| Exception
| KeyboardInterrupt
| SystemExit
| GeneratorExit
| OSError
| ConnectionError
| TimeoutError
| ValueError
| TypeError
| RuntimeError
| AttributeError
| LibraryError (name : string).

#[global] Instance exc_class_eq_dec : EqDecision exc_class.
Proof. solve_decision. Defined.

(** The direct base class ([cls.__base__]). *)
Definition base_class (c : exc_class) : option exc_class :=
  match c with
  | BaseException => None
  | Exception | KeyboardInterrupt | SystemExit | GeneratorExit =>
      Some BaseException
  | OSError | ValueError | TypeError | RuntimeError | AttributeError
  | LibraryError _ => Some Exception
  | ConnectionError | TimeoutError => Some OSError
  end.

Fixpoint issubclass_upto (depth : nat) (c d : exc_class) : bool :=
  bool_decide (c = d) ||
  match depth, base_class c with
  | S depth', Some b => issubclass_upto depth' b d
  | _, _ => false
  end.

(** [issubclass(c, d)]; no class above is more than three steps below
    [BaseException]. *)
Definition issubclass (c d : exc_class) : bool := issubclass_upto 3 c d.

(** An exception object [cls(arg)] built with one string argument. *)
Record exc : Type := MkExc { exc_type : exc_class; exc_arg : string }.

(** [isinstance(e, cls)] *)
Definition isinstance (e : exc) (cls : exc_class) : bool :=
  issubclass (exc_type e) cls.

(** [str(e)]: for an exception built with one string argument,
    [BaseException.__str__] gives that argument. *)
Definition py_str (e : exc) : string := exc_arg e.

(** The outcome of a Python call: a returned value or a raised
    exception. *)
Inductive outcome (A : Type) : Type :=
| Returned (a : A)
| Raised (e : exc).
Arguments Returned {A} a.
Arguments Raised {A} e.

(** ** The world *)

(** Object identities. *)
Definition loc : Type := nat.

(** An [Elasticsearch] client object, as the library hands it out. *)
Definition handle : Type := nat.

(** A toolkit instance: the four attributes [__init__] sets. *)
Record ElasticsearchToolkit : Type := MkToolkit {
  hosts : list string;
  username : option string;
  password : option string;
  client : handle
}.

(** Calls made on the client library, with their arguments. *)
Inductive client_call : Type :=
| ES_new (hosts : list string) (http_auth : option string * option string)
| ES_search (h : handle) (index : string) (body : pydict)
| ES_index (h : handle) (index : string) (id : option string) (body : pydict)
| ES_cluster_health (h : handle)
| ES_cluster_stats (h : handle).

(** Log records.  A message is kept as the parts of its f-string:
    literal or already-string text, and values that [format] renders
    with [str]. *)
Inductive level : Type := DEBUG | ERROR.

Inductive fpart : Type :=
| Text (s : string)
| Shown (v : pyvalue).

Record log_record : Type := MkLog { lvl : level; message : list fpart }.

(** The client library: what each call returns or raises, and how it
    moves the remote state [R].  Responses are mappings, as the
    signatures of the toolkit's methods have it. *)
Record backend (R : Type) : Type := MkBackend {
  es_new : list string -> option string * option string -> R ->
           outcome handle * R;
  es_search : handle -> string -> pydict -> R -> outcome pydict * R;
  es_index : handle -> string -> option string -> pydict -> R ->
             outcome pydict * R;
  es_cluster_health : handle -> R -> outcome pydict * R;
  es_cluster_stats : handle -> R -> outcome pydict * R
}.
Arguments es_new {R} _ _ _ _.
Arguments es_search {R} _ _ _ _ _.
Arguments es_index {R} _ _ _ _ _ _.
Arguments es_cluster_health {R} _ _ _.
Arguments es_cluster_stats {R} _ _ _.

Record world (R : Type) : Type := MkWorld {
  instances : gmap loc ElasticsearchToolkit;
  environ : gmap string string;
  calls : list client_call;
  logs : list log_record;
  remote : R
}.
Arguments MkWorld {R} _ _ _ _ _.
Arguments instances {R} _.
Arguments environ {R} _.
Arguments calls {R} _.
Arguments logs {R} _.
Arguments remote {R} _.

(** ** A state and exception monad *)

Definition M (R A : Type) : Type := world R -> outcome A * world R.

Definition ret {R A} (a : A) : M R A := fun w => (Returned a, w).

Definition raise {R A} (e : exc) : M R A := fun w => (Raised e, w).

Definition bind {R A B} (m : M R A) (k : A -> M R B) : M R B :=
  fun w =>
    match m w with
    | (Returned a, w') => k a w'
    | (Raised e, w') => (Raised e, w')
    end.

Declare Scope py_scope.
Delimit Scope py_scope with py.
Notation "x <- m ;; k" := (bind m (fun x => k))
  (at level 100, m at next level, right associativity) : py_scope.
Notation "m ;;; k" := (bind m (fun _ => k))
  (at level 100, right associativity) : py_scope.
Open Scope py_scope.

(** [try: body  except cls as e: handler e].  An exception that is not
    an instance of [cls] goes on propagating; effects of [body] before
    the raise stay. *)
Definition try_except {R A} (body : M R A) (cls : exc_class)
    (handler : exc -> M R A) : M R A :=
  fun w =>
    match body w with
    | (Returned a, w') => (Returned a, w')
    | (Raised e, w') =>
        if isinstance e cls then handler e w' else (Raised e, w')
    end.

(** ** Primitives: logger, environment, instance store, client library *)

Section Toolkit.

Context {R : Type}.

(** The client library in use. *)
Variable es : backend R.

(** [logger.debug(msg)] and [logger.error(msg)] (loguru): the record is
    appended to the log; nothing is returned. *)
Definition logger_debug (msg : list fpart) : M R unit :=
  fun w =>
    (Returned tt,
     MkWorld (instances w) (environ w) (calls w)
       (logs w ++ [MkLog DEBUG msg]) (remote w)).

Definition logger_error (msg : list fpart) : M R unit :=
  fun w =>
    (Returned tt,
     MkWorld (instances w) (environ w) (calls w)
       (logs w ++ [MkLog ERROR msg]) (remote w)).

(** [os.getenv(key)]: [None] when the variable is unset. *)
Definition os_getenv (key : string) : M R (option string) :=
  fun w => (Returned (environ w !! key), w).

(** [os.getenv(key, default)] *)
Definition os_getenv_default (key default : string) : M R string :=
  fun w =>
    (Returned (match environ w !! key with Some v => v | None => default end),
     w).

(** [a or alt] for [a : Optional[List[str]]]: [None] and the empty list
    are falsy; [alt] is evaluated only then. *)
Definition or_list (a : option (list string)) (alt : M R (list string)) :
    M R (list string) :=
  match a with
  | Some (x :: xs) => ret (x :: xs)
  | Some [] | None => alt
  end.

(** [a or alt] for [a : Optional[str]]: [None] and the empty string are
    falsy. *)
Definition or_str (a : option string) (alt : M R (option string)) :
    M R (option string) :=
  match a with
  | Some s => if bool_decide (s = "") then alt else ret (Some s)
  | None => alt
  end.

(** A call on the client library: it is recorded in the trace, the
    remote state moves, and the library's outcome (a value or an
    exception) is the outcome of the call. *)
Definition call_client {A} (c : client_call) (f : R -> outcome A * R) :
    M R A :=
  fun w =>
    let '(o, r) := f (remote w) in
    (o, MkWorld (instances w) (environ w) (calls w ++ [c]) (logs w) r).

(** [Elasticsearch(hosts, http_auth=http_auth)] *)
Definition Elasticsearch (hs : list string)
    (http_auth : option string * option string) : M R handle :=
  call_client (ES_new hs http_auth) (es_new es hs http_auth).

(** [client.search(index=index, body=body)] *)
Definition client_search (h : handle) (index : string) (body : pydict) :
    M R pydict :=
  call_client (ES_search h index body) (es_search es h index body).

(** [client.index(index=index, id=id, body=body)] *)
Definition client_index (h : handle) (index : string) (id : option string)
    (body : pydict) : M R pydict :=
  call_client (ES_index h index id body) (es_index es h index id body).

(** [client.cluster.health()] *)
Definition client_cluster_health (h : handle) : M R pydict :=
  call_client (ES_cluster_health h) (es_cluster_health es h).

(** [client.cluster.stats()] *)
Definition client_cluster_stats (h : handle) : M R pydict :=
  call_client (ES_cluster_stats h) (es_cluster_stats es h).

(** The identity of a new object. *)
Definition new_object : M R loc :=
  fun w => (Returned (fresh (dom (instances w))), w).

(** The attributes of [self] are set. *)
Definition set_attributes (self : loc) (obj : ElasticsearchToolkit) :
    M R unit :=
  fun w =>
    (Returned tt,
     MkWorld (<[self := obj]> (instances w)) (environ w) (calls w) (logs w)
       (remote w)).

(** [self.client]: an object without that attribute raises
    [AttributeError]. *)
Definition self_client (self : loc) : M R handle :=
  fun w =>
    match instances w !! self with
    | Some obj => (Returned (client obj), w)
    | None =>
        raise (MkExc AttributeError
                 "'ElasticsearchToolkit' object has no attribute 'client'") w
    end.

(** ** The methods of [ElasticsearchToolkit] *)

(** [__init__]: the three assignments resolve the configuration, the
    fourth builds the client from the resolved values. *)
Definition __init__ (self : loc) (hosts : option (list string))
    (username password : option string) : M R unit :=
  self_hosts <-
    or_list hosts
      (h <- os_getenv_default "ELASTICSEARCH_HOST" "https://localhost:9200" ;;
       ret [h]) ;;
  self_username <- or_str username (os_getenv "ELASTICSEARCH_USERNAME") ;;
  self_password <- or_str password (os_getenv "ELASTICSEARCH_PASSWORD") ;;
  self_client <- Elasticsearch self_hosts (self_username, self_password) ;;
  set_attributes self
    (MkToolkit self_hosts self_username self_password self_client).

(** [ElasticsearchToolkit(hosts, username, password)]: a new object is
    made, [__init__] runs on it, and the object is the value of the
    call. *)
Definition construct (hosts : option (list string))
    (username password : option string) : M R loc :=
  self <- new_object ;;
  (__init__ self hosts username password ;;;
   ret self).

(** The single-key mapping [{"error": str(e)}]. *)
Definition error_mapping (e : exc) : pydict := [("error", PyStr (py_str e))].

(** [f"{doc_id}"] for an [Optional[str]]. *)
Definition optional_str (o : option string) : fpart :=
  match o with
  | Some s => Text s
  | None => Shown PyNone
  end.

Definition search (self : loc) (index : string) (query : pydict) :
    M R pydict :=
  logger_debug [Text "Searching in index '"; Text index;
                Text "' with query: "; Shown (PyDict query)] ;;;
  try_except
    (c <- self_client self ;;
     response <- client_search c index query ;;
     ret response)
    Exception
    (fun e =>
       logger_error [Text "An error occurred during the search: ";
                     Text (py_str e)] ;;;
       ret (error_mapping e)).

Definition index_document (self : loc) (index : string) (document : pydict)
    (doc_id : option string) : M R pydict :=
  logger_debug [Text "Indexing document in index '"; Text index;
                Text "' with ID '"; optional_str doc_id; Text "': ";
                Shown (PyDict document)] ;;;
  try_except
    (c <- self_client self ;;
     response <- client_index c index doc_id document ;;
     ret response)
    Exception
    (fun e =>
       logger_error [Text "An error occurred during the indexing: ";
                     Text (py_str e)] ;;;
       ret (error_mapping e)).

Definition cluster_health (self : loc) : M R pydict :=
  logger_debug [Text "Getting cluster health status"] ;;;
  try_except
    (c <- self_client self ;;
     response <- client_cluster_health c ;;
     ret response)
    Exception
    (fun e =>
       logger_error [Text "An error occurred while getting cluster health: ";
                     Text (py_str e)] ;;;
       ret (error_mapping e)).

Definition cluster_stats (self : loc) : M R pydict :=
  logger_debug [Text "Getting cluster statistics"] ;;;
  try_except
    (c <- self_client self ;;
     response <- client_cluster_stats c ;;
     ret response)
    Exception
    (fun e =>
       logger_error
         [Text "An error occurred while getting cluster statistics: ";
          Text (py_str e)] ;;;
       ret (error_mapping e)).

End Toolkit.

(** ** Tool descriptors *)

(** The four public methods of the class, in the order of their [def]s. *)
Inductive method : Type :=
| m_search
| m_index_document
| m_cluster_health
| m_cluster_stats.

#[global] Instance method_eq_dec : EqDecision method.
Proof. solve_decision. Defined.

(** [f.__name__]: the name in the method's [def]. *)
Definition __name__ (m : method) : string :=
  match m with
  | m_search => "search"
  | m_index_document => "index_document"
  | m_cluster_health => "cluster_health"
  | m_cluster_stats => "cluster_stats"
  end.

(** The parameters in the method's [def], [self] apart. *)
Definition parameters (m : method) : list string :=
  match m with
  | m_search => ["index"; "query"]
  | m_index_document => ["index"; "document"; "doc_id"]
  | m_cluster_health => []
  | m_cluster_stats => []
  end.

(** A bound method [self.m]. *)
Record bound_method : Type := Bind {
  __self__ : loc;
  __func__ : method
}.

(** Modelled from the spec: [FunctionTool] (imported from
    [camel.toolkits.base], not under src/).  The spec has a tool
    descriptor wrap a callable together with its name and signature; the
    name and the parameter list are read off the wrapped callable. *)
Record FunctionTool : Type := new_FunctionTool { func : bound_method }.

Definition tool_name (t : FunctionTool) : string := __name__ (__func__ (func t)).

Definition tool_parameters (t : FunctionTool) : list string :=
  parameters (__func__ (func t)).

Definition get_tools {R : Type} (self : loc) : M R (list FunctionTool) :=
  ret [ new_FunctionTool (Bind self m_search);
        new_FunctionTool (Bind self m_index_document);
        new_FunctionTool (Bind self m_cluster_health);
        new_FunctionTool (Bind self m_cluster_stats) ].

(** ** Calls on the four operations *)

(** A call of one of the four operations, with its arguments. *)
Inductive invocation : Type :=
| call_search (index : string) (query : pydict)
| call_index_document (index : string) (document : pydict)
    (doc_id : option string)
| call_cluster_health
| call_cluster_stats.

Definition invoke {R : Type} (es : backend R) (self : loc) (i : invocation) :
    M R pydict :=
  match i with
  | call_search index query => search es self index query
  | call_index_document index document doc_id =>
      index_document es self index document doc_id
  | call_cluster_health => cluster_health es self
  | call_cluster_stats => cluster_stats es self
  end.

(** The client call an operation stands for: the entry it leaves in the
    trace, and what the library answers to it. *)
Definition forwarded (h : handle) (i : invocation) : client_call :=
  match i with
  | call_search index query => ES_search h index query
  | call_index_document index document doc_id =>
      ES_index h index doc_id document
  | call_cluster_health => ES_cluster_health h
  | call_cluster_stats => ES_cluster_stats h
  end.

Definition answer {R : Type} (es : backend R) (h : handle) (i : invocation) :
    R -> outcome pydict * R :=
  match i with
  | call_search index query => es_search es h index query
  | call_index_document index document doc_id =>
      es_index es h index doc_id document
  | call_cluster_health => es_cluster_health es h
  | call_cluster_stats => es_cluster_stats es h
  end.

(** ** Concrete clients and worlds *)

(** A client stub: construction gives client object [7]; every request
    has the outcome [o]. *)
Definition stub (o : outcome pydict) : backend unit :=
  MkBackend unit
    (fun _ _ r => (Returned 7, r))
    (fun _ _ _ r => (o, r))
    (fun _ _ _ _ r => (o, r))
    (fun _ r => (o, r))
    (fun _ r => (o, r)).

(** A client that keeps, as remote state, the number of writes so far
    and answers each [index] with the new count as [_version]. *)
Definition counting : backend Z :=
  MkBackend Z
    (fun _ _ n => (Returned 7, n))
    (fun _ _ _ n => (Returned [("hits", PyDict [("total", PyInt 0)])], n))
    (fun _ _ _ _ n => (Returned [("_version", PyInt (n + 1))], (n + 1)%Z))
    (fun _ n => (Returned [("status", PyStr "green")], n))
    (fun _ n => (Returned [("status", PyStr "green")], n)).

(** A world with nothing constructed, called or logged yet. *)
Definition fresh_world {R : Type} (env : gmap string string) (r : R) :
    world R :=
  MkWorld ∅ env [] [] r.


Definition no_hits : pydict := [("hits", PyDict [("total", PyInt 0)])].

(** [ConnectionError("timeout")], [KeyboardInterrupt()] and
    [SystemExit()]. *)
Definition timeout : exc := MkExc ConnectionError "timeout".



(** The world after [ElasticsearchToolkit(hosts=["http://localhost:9200"])]
    in a fresh process with environment [env]; the toolkit is the first
    object made, [adapter]. *)
Definition localhost {R : Type} (es : backend R) (env : gmap string string)
    (r : R) : world R :=
  snd (construct es (Some ["http://localhost:9200"]) None None
         (fresh_world env r)).

Definition adapter : loc := 0.

(** An environment with [ELASTICSEARCH_HOST] and
    [ELASTICSEARCH_USERNAME] set and [ELASTICSEARCH_PASSWORD] unset. *)
Definition host_and_user_env : gmap string string :=
  <["ELASTICSEARCH_HOST" := "http://b:9200"]>
    (<["ELASTICSEARCH_USERNAME" := "elastic"]> ∅).

(** The value of [hosts or [os.getenv("ELASTICSEARCH_HOST", default)]],
    as [or_list] computes it, in terms of the argument and the
    environment. *)
Definition resolved_hosts (arg : option (list string))
    (env : gmap string string) : list string :=
  match arg with
  | Some (x :: xs) => x :: xs
  | Some [] | None =>
      [match env !! "ELASTICSEARCH_HOST" with
       | Some v => v
       | None => "https://localhost:9200"
       end]
  end.

(** The value of [arg or os.getenv(key)], as [or_str] computes it. *)
Definition resolved_str (arg : option string) (key : string)
    (env : gmap string string) : option string :=
  match arg with
  | Some s => if bool_decide (s = "") then env !! key else Some s
  | None => env !! key
  end.


(** The world [w] with the process environment replaced by [env]
    ([os.environ] changed from outside the toolkit). *)
Definition with_environ {R : Type} (env : gmap string string) (w : world R) :
    world R :=
  MkWorld (instances w) env (calls w) (logs w) (remote w).

(** A client library whose constructor refuses every configuration;
    requests, were a client to exist, have the outcome [o]. *)
Definition refusing (o : outcome pydict) : backend unit :=
  MkBackend unit
    (fun _ _ r => (Raised (MkExc (LibraryError "ImproperlyConfigured")
                             "bad hosts"), r))
    (fun _ _ _ r => (o, r))
    (fun _ _ _ _ r => (o, r))
    (fun _ r => (o, r))
    (fun _ r => (o, r)).

(** ** How the methods run *)

Section Runs.

Context {R : Type}.
Variable es : backend R.

(** The constructor resolves the configuration, calls the library once
    with it and, when a client comes back, stores the instance. *)
Lemma construct_run (hosts_arg : option (list string))
    (username_arg password_arg : option string) (w : world R) :
  let hs := resolved_hosts hosts_arg (environ w) in
  let u := resolved_str username_arg "ELASTICSEARCH_USERNAME" (environ w) in
  let p := resolved_str password_arg "ELASTICSEARCH_PASSWORD" (environ w) in
  let self := fresh (dom (instances w)) in
  construct es hosts_arg username_arg password_arg w =
  match es_new es hs (u, p) (remote w) with
  | (Returned h, r) =>
      (Returned self,
       MkWorld (<[self := MkToolkit hs u p h]> (instances w)) (environ w)
         (calls w ++ [ES_new hs (u, p)]) (logs w) r)
  | (Raised e, r) =>
      (Raised e,
       MkWorld (instances w) (environ w) (calls w ++ [ES_new hs (u, p)])
         (logs w) r)
  end.
Proof.
  intros hs u p self. subst hs u p self.
  unfold construct, __init__, bind, new_object, Elasticsearch, call_client,
    set_attributes, or_list, or_str, os_getenv, os_getenv_default, ret,
    resolved_hosts, resolved_str.
  destruct hosts_arg as [[|x xs]|], username_arg as [s1|],
    password_arg as [s2|];
    repeat match goal with
           | |- context [bool_decide (?s = "")] =>
               destruct (bool_decide (s = ""))
           end;
    cbn [environ instances remote calls logs];
    match goal with
    | |- context [es_new es ?a ?b ?c] =>
        destruct (es_new es a b c) as [[h|e] r]
    end;
    reflexivity.
Qed.

(** Each of the four operations logs, forwards to the client of [self]
    and then returns the answer, turns an [Exception] into the error
    mapping (logging it), or lets any other exception through. *)
Lemma invoke_run (self : loc) (obj : ElasticsearchToolkit) (i : invocation)
    (w : world R) :
  instances w !! self = Some obj ->
  exists (dbg : log_record) (err : exc -> log_record),
    invoke es self i w =
    match answer es (client obj) i (remote w) with
    | (Returned d, r) =>
        (Returned d,
         MkWorld (instances w) (environ w)
           (calls w ++ [forwarded (client obj) i]) (logs w ++ [dbg]) r)
    | (Raised e, r) =>
        if isinstance e Exception
        then (Returned (error_mapping e),
              MkWorld (instances w) (environ w)
                (calls w ++ [forwarded (client obj) i])
                ((logs w ++ [dbg]) ++ [err e]) r)
        else (Raised e,
              MkWorld (instances w) (environ w)
                (calls w ++ [forwarded (client obj) i]) (logs w ++ [dbg]) r)
    end.
Proof.
  intros Hself.
  destruct i as [index query|index document doc_id| |];
    cbn [invoke answer forwarded];
    unfold search, index_document, cluster_health, cluster_stats, bind,
      try_except, logger_debug, logger_error, self_client, client_search,
      client_index, client_cluster_health, client_cluster_stats, call_client,
      ret;
    cbn [environ instances remote calls logs]; rewrite Hself;
    cbn [environ instances remote calls logs client];
    eexists _, _;
    match goal with
    | |- context [match ?f (remote w) with _ => _ end] =>
        destruct (f (remote w)) as [[d|e] r]
    end;
    cbn [environ instances remote calls logs];
    first [reflexivity | destruct (isinstance e Exception); reflexivity].
Qed.

End Runs.

(** ** The uniform error contract *)












(** ** Indexing twice *)



(** ** The list of tools *)

(** C6.  For every toolkit and every world, [get_tools] returns exactly
    four descriptors, one per public operation, named [search],
    [index_document], [cluster_health], [cluster_stats] in that order,
    each bound to the toolkit it was asked of; the world (instances,
    trace, log, remote state) is left as it was. *)
Theorem get_tools_descriptors {R : Type} (self : loc) (w : world R) :
  exists tools : list FunctionTool,
    get_tools self w = (Returned tools, w) /\
    length tools = 4 /\
    map tool_name tools
    = ["search"; "index_document"; "cluster_health"; "cluster_stats"] /\
    map (fun t => __func__ (func t)) tools
    = [m_search; m_index_document; m_cluster_health; m_cluster_stats] /\
    Forall (fun t => __self__ (func t) = self) tools.
Proof.
  eexists. split; [reflexivity|].
  repeat split; repeat constructor.
Qed.

(** ** Construction *)

(** C7.  Constructing the toolkit with no arguments while
    [ELASTICSEARCH_HOST], [ELASTICSEARCH_USERNAME] and
    [ELASTICSEARCH_PASSWORD] are unset: the client library is asked for
    a client of [["https://localhost:9200"]] and, when it hands one out,
    the new toolkit has [hosts = ["https://localhost:9200"]] and
    [username = password = None]. *)
Theorem construct_defaults {R : Type} (es : backend R) (w : world R) :
  environ w !! "ELASTICSEARCH_HOST" = None ->
  environ w !! "ELASTICSEARCH_USERNAME" = None ->
  environ w !! "ELASTICSEARCH_PASSWORD" = None ->
  calls (snd (construct es None None None w))
  = (calls w ++ [ES_new ["https://localhost:9200"] (None, None)])%list /\
  forall (h : handle) (r : R),
    es_new es ["https://localhost:9200"] (None, None) (remote w)
    = (Returned h, r) ->
    exists self : loc,
      fst (construct es None None None w) = Returned self /\
      instances w !! self = None /\
      instances (snd (construct es None None None w)) !! self
      = Some (MkToolkit ["https://localhost:9200"] None None h).
Proof.
  intros Hh Hu Hp.
  pose proof (construct_run es None None None w) as H.
  cbn [resolved_hosts resolved_str] in H. rewrite Hh, Hu, Hp in H.
  cbv zeta in H. rewrite H. split.
  - destruct (es_new es ["https://localhost:9200"] (None, None) (remote w))
      as [[h|e] r]; reflexivity.
  - intros h r Hnew. rewrite Hnew. cbn [fst snd instances].
    exists (fresh (dom (instances w))). split; [reflexivity|]. split.
    + apply not_elem_of_dom. apply is_fresh.
    + apply lookup_insert_eq.
Qed.

Lemma construct_defaults_witness :
  calls (snd (construct (stub (Returned no_hits)) None None None
                (fresh_world ∅ tt)))
  = [ES_new ["https://localhost:9200"] (None, None)] /\
  forall (h : handle) (r : unit),
    es_new (stub (Returned no_hits)) ["https://localhost:9200"] (None, None)
      tt = (Returned h, r) ->
    exists self : loc,
      fst (construct (stub (Returned no_hits)) None None None
             (fresh_world ∅ tt)) = Returned self /\
      instances (fresh_world (R:=unit) ∅ tt) !! self = None /\
      instances (snd (construct (stub (Returned no_hits)) None None None
                        (fresh_world ∅ tt))) !! self
      = Some (MkToolkit ["https://localhost:9200"] None None h).
Proof.
  apply (construct_defaults (stub (Returned no_hits)) (fresh_world ∅ tt));
    vm_compute; reflexivity.
Defined.

(** C8.  At construction, for each of [hosts], [username] and
    [password]: a provided non-empty argument is the resolved value,
    whatever the environment holds; an absent or empty argument falls
    back to the environment variable; and [hosts] falls back further to
    ["https://localhost:9200"] when [ELASTICSEARCH_HOST] is unset too. *)
Theorem construct_precedence {R : Type} (es : backend R)
    (hosts_arg : option (list string)) (username_arg password_arg : option string)
    (w w' : world R) (self : loc) :
  construct es hosts_arg username_arg password_arg w = (Returned self, w') ->
  exists obj : ElasticsearchToolkit,
    instances w' !! self = Some obj /\
    (forall hs, hosts_arg = Some hs -> hs <> [] -> hosts obj = hs) /\
    (hosts_arg = None \/ hosts_arg = Some [] ->
     forall v, environ w !! "ELASTICSEARCH_HOST" = Some v ->
               hosts obj = [v]) /\
    (hosts_arg = None \/ hosts_arg = Some [] ->
     environ w !! "ELASTICSEARCH_HOST" = None ->
     hosts obj = ["https://localhost:9200"]) /\
    (forall u, username_arg = Some u -> u <> "" -> username obj = Some u) /\
    (username_arg = None \/ username_arg = Some "" ->
     username obj = environ w !! "ELASTICSEARCH_USERNAME") /\
    (forall p, password_arg = Some p -> p <> "" -> password obj = Some p) /\
    (password_arg = None \/ password_arg = Some "" ->
     password obj = environ w !! "ELASTICSEARCH_PASSWORD").
Proof.
  intros Hrun.
  pose proof (construct_run es hosts_arg username_arg password_arg w) as H.
  cbv zeta in H. rewrite Hrun in H.
  destruct (es_new es _ _ (remote w)) as [[h|e] r]; [|discriminate H].
  injection H as -> ->. cbn [instances].
  eexists. split; [apply lookup_insert_eq|]. cbn [hosts username password].
  repeat split.
  - intros hs -> Hne. destruct hs; [congruence|reflexivity].
  - intros [->| ->] v Hv; cbn [resolved_hosts]; rewrite Hv; reflexivity.
  - intros [->| ->] Hv; cbn [resolved_hosts]; rewrite Hv; reflexivity.
  - intros u -> Hne. unfold resolved_str.
    rewrite bool_decide_eq_false_2 by exact Hne. reflexivity.
  - intros [->| ->]; reflexivity.
  - intros p -> Hne. unfold resolved_str.
    rewrite bool_decide_eq_false_2 by exact Hne. reflexivity.
  - intros [->| ->]; reflexivity.
Qed.

(** The spec's case: an explicit [hosts=["http://a:9200"]] wins over a
    set [ELASTICSEARCH_HOST]; the absent username comes from the
    environment; the empty password falls back to the unset variable. *)
Lemma construct_precedence_witness :
  exists obj : ElasticsearchToolkit,
    instances
      (snd (construct (stub (Returned no_hits)) (Some ["http://a:9200"]) None
              (Some "") (fresh_world host_and_user_env tt))) !! adapter
    = Some obj /\
    hosts obj = ["http://a:9200"] /\
    username obj = Some "elastic" /\
    password obj = None.
Proof.
  destruct (construct_precedence (stub (Returned no_hits))
              (Some ["http://a:9200"]) None (Some "")
              (fresh_world host_and_user_env tt)
              (snd (construct (stub (Returned no_hits))
                      (Some ["http://a:9200"]) None (Some "")
                      (fresh_world host_and_user_env tt)))
              adapter)
    as (obj & Hobj & Hh & _ & _ & _ & Hu & _ & Hp).
  - vm_compute. reflexivity.
  - exists obj. split; [exact Hobj|]. split; [|split].
    + apply Hh; [reflexivity|discriminate].
    + rewrite Hu by (left; reflexivity). vm_compute. reflexivity.
    + rewrite Hp by (right; reflexivity). vm_compute. reflexivity.
Defined.

(** C10.  For every combination of arguments and environment, the
    constructor calls [Elasticsearch] exactly once, with
    [http_auth = (username, password)], the pair of the resolved
    credentials [username or os.getenv(...)] and
    [password or os.getenv(...)]; these are the credentials the toolkit
    stores when the client is handed out; and when neither argument nor
    environment gives a credential, the pair passed is [(None, None)]. *)
Theorem construct_passes_http_auth {R : Type} (es : backend R)
    (hosts_arg : option (list string)) (username_arg password_arg : option string)
    (w : world R) :
  exists (hs : list string) (u p : option string),
    calls (snd (construct es hosts_arg username_arg password_arg w))
    = (calls w ++ [ES_new hs (u, p)])%list /\
    fst (or_str username_arg (os_getenv "ELASTICSEARCH_USERNAME") w)
    = Returned u /\
    fst (or_str password_arg (os_getenv "ELASTICSEARCH_PASSWORD") w)
    = Returned p /\
    (forall self,
       fst (construct es hosts_arg username_arg password_arg w)
       = Returned self ->
       exists obj,
         instances (snd (construct es hosts_arg username_arg password_arg w))
           !! self = Some obj /\
         hosts obj = hs /\ username obj = u /\ password obj = p) /\
    (username_arg = None -> password_arg = None ->
     environ w !! "ELASTICSEARCH_USERNAME" = None ->
     environ w !! "ELASTICSEARCH_PASSWORD" = None ->
     (u, p) = (None, None)).
Proof.
  pose proof (construct_run es hosts_arg username_arg password_arg w) as H.
  cbv zeta in H.
  exists (resolved_hosts hosts_arg (environ w)),
    (resolved_str username_arg "ELASTICSEARCH_USERNAME" (environ w)),
    (resolved_str password_arg "ELASTICSEARCH_PASSWORD" (environ w)).
  rewrite H. clear H.
  assert (Hs : forall a key,
             fst (or_str a (os_getenv key) w)
             = Returned (resolved_str a key (environ w))).
  { intros a key. destruct a as [s|]; [|reflexivity].
    unfold or_str, resolved_str. destruct (bool_decide (s = ""));
      reflexivity. }
  split; [|split; [apply Hs|split; [apply Hs|split]]].
  - destruct (es_new es _ _ (remote w)) as [[h|e] r]; reflexivity.
  - intros self Hself.
    destruct (es_new es _ _ (remote w)) as [[h|e] r]; [|discriminate Hself].
    cbn [fst] in Hself. injection Hself as <-. cbn [snd instances].
    eexists. split; [apply lookup_insert_eq|]. repeat split.
  - intros -> -> Hu Hp. cbn [resolved_str]. rewrite Hu, Hp. reflexivity.
Qed.

Lemma construct_passes_http_auth_witness :
  exists (hs : list string) (u p : option string),
    calls (snd (construct (stub (Returned no_hits)) None None None
                  (fresh_world ∅ tt)))
    = [ES_new hs (u, p)] /\ (u, p) = (None, None).
Proof.
  destruct (construct_passes_http_auth (stub (Returned no_hits)) None None
              None (fresh_world ∅ tt))
    as (hs & u & p & Hc & _ & _ & _ & Hnone).
  exists hs, u, p. split; [exact Hc|].
  apply Hnone; vm_compute; reflexivity.
Defined.

(** ** The frame of the operations *)



(** ** Further properties of the operations *)




(** X2.  The constructor has no [try]: when [Elasticsearch(...)] raises
    [e] on the resolved configuration, even an instance of [Exception],
    the construction raises [e]; no toolkit is stored and nothing is
    logged. *)
Theorem construct_failure_propagates {R : Type} (es : backend R)
    (hosts_arg : option (list string)) (username_arg password_arg : option string)
    (w : world R) (e : exc) :
  fst (es_new es (resolved_hosts hosts_arg (environ w))
         (resolved_str username_arg "ELASTICSEARCH_USERNAME" (environ w),
          resolved_str password_arg "ELASTICSEARCH_PASSWORD" (environ w))
         (remote w)) = Raised e ->
  fst (construct es hosts_arg username_arg password_arg w) = Raised e /\
  instances (snd (construct es hosts_arg username_arg password_arg w))
  = instances w /\
  logs (snd (construct es hosts_arg username_arg password_arg w)) = logs w.
Proof.
  intros Hraise.
  pose proof (construct_run es hosts_arg username_arg password_arg w) as H.
  cbv zeta in H. rewrite H.
  destruct (es_new es _ _ (remote w)) as [o r]. cbn [fst] in Hraise.
  subst o. repeat split.
Qed.

Lemma construct_failure_propagates_witness :
  fst (construct (refusing (Returned no_hits)) None None None
         (fresh_world ∅ tt))
  = Raised (MkExc (LibraryError "ImproperlyConfigured") "bad hosts") /\
  instances (snd (construct (refusing (Returned no_hits)) None None None
                    (fresh_world ∅ tt))) = ∅ /\
  logs (snd (construct (refusing (Returned no_hits)) None None None
               (fresh_world ∅ tt))) = [].
Proof.
  apply (construct_failure_propagates (refusing (Returned no_hits)) None None
           None (fresh_world ∅ tt)).
  vm_compute. reflexivity.
Defined.

(** X3.  Two constructions in a row give two different toolkits, each
    stored with the configuration of its own [Elasticsearch] call; the
    second construction leaves the first toolkit as it was. *)
Theorem construct_twice_distinct {R : Type} (es : backend R)
    (hosts1 hosts2 : option (list string))
    (username1 password1 username2 password2 : option string)
    (w w1 w2 : world R) (s1 s2 : loc) :
  construct es hosts1 username1 password1 w = (Returned s1, w1) ->
  construct es hosts2 username2 password2 w1 = (Returned s2, w2) ->
  s1 <> s2 /\
  exists t1 t2 : ElasticsearchToolkit,
    instances w1 !! s1 = Some t1 /\
    instances w2 !! s1 = Some t1 /\
    instances w2 !! s2 = Some t2 /\
    calls w2
    = (calls w ++ [ES_new (hosts t1) (username t1, password t1);
                   ES_new (hosts t2) (username t2, password t2)])%list.
Proof.
  intros H1 H2.
  pose proof (construct_run es hosts1 username1 password1 w) as R1.
  cbv zeta in R1. rewrite H1 in R1.
  destruct (es_new es _ _ (remote w)) as [[h1|e1] r1]; [|discriminate R1].
  injection R1 as -> ->.
  pose proof (construct_run es hosts2 username2 password2
                (MkWorld
                   (<[fresh (dom (instances w)) :=
                        MkToolkit (resolved_hosts hosts1 (environ w))
                          (resolved_str username1 "ELASTICSEARCH_USERNAME"
                             (environ w))
                          (resolved_str password1 "ELASTICSEARCH_PASSWORD"
                             (environ w)) h1]> (instances w))
                   (environ w)
                   (calls w ++
                    [ES_new (resolved_hosts hosts1 (environ w))
                       (resolved_str username1 "ELASTICSEARCH_USERNAME"
                          (environ w),
                        resolved_str password1 "ELASTICSEARCH_PASSWORD"
                          (environ w))])
                   (logs w) r1)) as R2.
  cbv zeta in R2. rewrite H2 in R2.
  cbn [instances environ calls logs remote] in R2.
  destruct (es_new es _ _ r1) as [[h2|e2] r2]; [|discriminate R2].
  injection R2 as -> ->.
  set (s1 := fresh (dom (instances w))).
  set (t1 := MkToolkit _ _ _ h1).
  set (s2 := fresh (dom (<[s1 := t1]> (instances w)))).
  assert (Hne : s1 <> s2).
  { intros Heq. pose proof (is_fresh (dom (<[s1 := t1]> (instances w)))) as Hf.
    fold s2 in Hf. rewrite <- Heq in Hf. apply Hf.
    apply elem_of_dom. rewrite lookup_insert_eq. eauto. }
  split; [exact Hne|].
  eexists t1, _. cbn [instances calls].
  split; [apply lookup_insert_eq|].
  split; [rewrite lookup_insert_ne by (intros Heq; apply Hne; symmetry; exact Heq);
          apply lookup_insert_eq|].
  split; [apply lookup_insert_eq|].
  rewrite <- app_assoc. reflexivity.
Qed.

Lemma construct_twice_distinct_witness :
  (0 : loc) <> 1 /\
  exists t1 t2 : ElasticsearchToolkit,
    instances (localhost counting host_and_user_env 0%Z) !! 0 = Some t1 /\
    instances
      (snd (construct counting None None None
              (localhost counting host_and_user_env 0%Z))) !! 0 = Some t1 /\
    instances
      (snd (construct counting None None None
              (localhost counting host_and_user_env 0%Z))) !! 1 = Some t2 /\
    calls
      (snd (construct counting None None None
              (localhost counting host_and_user_env 0%Z)))
    = [ES_new (hosts t1) (username t1, password t1);
       ES_new (hosts t2) (username t2, password t2)].
Proof.
  apply (construct_twice_distinct counting (Some ["http://localhost:9200"])
           None None None None None
           (fresh_world host_and_user_env 0%Z)
           (localhost counting host_and_user_env 0%Z)
           (snd (construct counting None None None
                   (localhost counting host_and_user_env 0%Z)))
           0 1);
    vm_compute; reflexivity.
Defined.



(** X5.  The error mapping is not told apart from a response: when one
    client succeeds with the response [{"error": m}] and another raises
    an instance of [Exception] whose [str] is [m], the operation returns
    the same value in both cases. *)
Theorem error_response_ambiguous {R : Type} (es1 es2 : backend R)
    (self : loc) (obj : ElasticsearchToolkit) (i : invocation) (w : world R)
    (m : string) (e : exc) :
  instances w !! self = Some obj ->
  fst (answer es1 (client obj) i (remote w)) = Returned [("error", PyStr m)] ->
  fst (answer es2 (client obj) i (remote w)) = Raised e ->
  isinstance e Exception = true ->
  py_str e = m ->
  fst (invoke es1 self i w) = fst (invoke es2 self i w).
Proof.
  intros Hself H1 H2 Hcls Hstr.
  destruct (invoke_run es1 self obj i w Hself) as (dbg1 & err1 & ->).
  destruct (invoke_run es2 self obj i w Hself) as (dbg2 & err2 & ->).
  destruct (answer es1 (client obj) i (remote w)) as [o1 r1].
  destruct (answer es2 (client obj) i (remote w)) as [o2 r2].
  cbn [fst] in H1, H2. subst o1 o2. rewrite Hcls. cbn [fst].
  unfold error_mapping. rewrite Hstr. reflexivity.
Qed.

Lemma error_response_ambiguous_witness :
  fst (invoke (stub (Returned [("error", PyStr "timeout")])) adapter
         call_cluster_stats (localhost (stub (Raised timeout)) ∅ tt))
  = fst (invoke (stub (Raised timeout)) adapter call_cluster_stats
           (localhost (stub (Raised timeout)) ∅ tt)).
Proof.
  apply (error_response_ambiguous
           (stub (Returned [("error", PyStr "timeout")]))
           (stub (Raised timeout)) adapter
           (MkToolkit ["http://localhost:9200"] None None 7)
           call_cluster_stats (localhost (stub (Raised timeout)) ∅ tt)
           "timeout" timeout);
    vm_compute; reflexivity.
Defined.

(** X6.  The environment is read at construction only: whatever
    [os.environ] is changed to afterwards, each operation returns the
    same outcome and has the same effects, and leaves the environment
    as it finds it. *)
Theorem operations_ignore_environment {R : Type} (es : backend R)
    (self : loc) (i : invocation) (env : gmap string string) (w : world R) :
  invoke es self i (with_environ env w)
  = (fst (invoke es self i w), with_environ env (snd (invoke es self i w))).
Proof.
  destruct i as [index query|index document doc_id| |];
    cbn [invoke];
    unfold search, index_document, cluster_health, cluster_stats, bind,
      try_except, logger_debug, logger_error, self_client, client_search,
      client_index, client_cluster_health, client_cluster_stats, call_client,
      ret, raise, with_environ;
    cbn [environ instances remote calls logs];
    destruct (instances w !! self) as [obj|];
    cbn [environ instances remote calls logs fst snd];
    try match goal with
        | |- context [match ?f (remote w) with _ => _ end] =>
            destruct (f (remote w)) as [[d|e] r]
        end;
    cbn [environ instances remote calls logs fst snd];
    try reflexivity;
    destruct (isinstance e Exception); reflexivity.
Qed.

(** X7.  The constructor, whether it succeeds or not, writes no log
    record, leaves the environment as it is, and keeps every toolkit
    that exists already; a toolkit it returns is a new object. *)
Theorem construct_frame {R : Type} (es : backend R)
    (hosts_arg : option (list string)) (username_arg password_arg : option string)
    (w : world R) :
  logs (snd (construct es hosts_arg username_arg password_arg w)) = logs w /\
  environ (snd (construct es hosts_arg username_arg password_arg w))
  = environ w /\
  (forall (l : loc) (obj : ElasticsearchToolkit),
     instances w !! l = Some obj ->
     instances (snd (construct es hosts_arg username_arg password_arg w)) !! l
     = Some obj) /\
  (forall self : loc,
     fst (construct es hosts_arg username_arg password_arg w) = Returned self ->
     instances w !! self = None).
Proof.
  pose proof (construct_run es hosts_arg username_arg password_arg w) as H.
  cbv zeta in H. rewrite H. clear H.
  destruct (es_new es _ _ (remote w)) as [[h|e] r];
    cbn [fst snd logs environ instances].
  - repeat split.
    + intros l obj Hl. rewrite lookup_insert_ne; [exact Hl|].
      intros Heq. pose proof (is_fresh (dom (instances w))) as Hf.
      rewrite Heq in Hf. apply Hf. apply elem_of_dom. eauto.
    + intros self Heq. injection Heq as <-.
      apply not_elem_of_dom. apply is_fresh.
  - repeat split; [auto|]. intros self Heq. discriminate Heq.
Qed.
